(** * A shallow embedding of [app.py], the WhatsApp relay service.

    The module [app.py] is a Flask application: every route reads a JSON
    body, builds a payload or a query, calls the provider with [requests]
    and answers with [jsonify].  The embedding keeps that shape:

    - JSON values are an inductive type, Python dictionaries that the code
      uses as maps ([template_variables]) are [gmap string string];
    - the provider is an oracle of the environment, and every call that a
      handler issues is appended to the log of the world;
    - exceptions are results of the monad [M]; a handler that lets one
      escape is answered by the framework with status 500. *)

From Stdlib Require Import ZArith String Ascii List Lia.
From stdpp Require Import base option list gmap strings pretty.

#[local] Set Warnings "-register-all".
Local Open Scope string_scope.
Local Open Scope Z_scope.

(** ** JSON values *)

Inductive json : Type :=
| JNull
| JBool (b : bool)
| JNum (n : Z)
| JStr (s : string)
| JArr (items : list json)
| JObj (fields : list (string * json)).

(** The value of a key of a JSON object, as [d[k]] reads it. *)
Fixpoint assoc (k : string) (fields : list (string * json)) : option json :=
  match fields with
  | [] => None
  | (k', v) :: rest => if String.eqb k k' then Some v else assoc k rest
  end.

Definition field (k : string) (j : json) : option json :=
  match j with
  | JObj fields => assoc k fields
  | _ => None
  end.

(** ** Python strings *)

(** [s.split(sep)] for a one-character separator: the result is never
    empty, [''.split(',')] is [['']]. *)
Fixpoint split (sep : ascii) (s : string) : list string :=
  match s with
  | EmptyString => [EmptyString]
  | String c rest =>
      if Ascii.eqb c sep then EmptyString :: split sep rest
      else match split sep rest with
           | [] => [String c EmptyString]
           | hd :: tl => String c hd :: tl
           end
  end.

(** [str(x)] of an optional string, as an f-string formats it. *)
Definition str_opt (o : option string) : string :=
  match o with
  | Some s => s
  | None => "None"
  end.

(** ** The provider and the world *)

Inductive http_method : Type := GET | POST.

(** The values [requests] accepts in [params]. *)
Inductive param_value : Type :=
| PNone
| PInt (n : Z)
| PStr (s : string)
| PList (l : list string).

Definition param_of_opt (o : option string) : param_value :=
  match o with
  | Some s => PStr s
  | None => PNone
  end.

Record http_call : Type := {
  call_method : http_method;
  call_url : string;
  call_headers : list (string * string);
  call_params : list (string * param_value);
  call_json : option json
}.

(** What [response.json()] gives: the decoded body, or the message of the
    decoding error. *)
Inductive decoded : Type :=
| Json (j : json)
| NotJson (msg : string).

Record response : Type := {
  status_code : Z;
  text : string;
  content : decoded
}.

(** [response.ok]: the status is below 400. *)
Definition ok (r : response) : bool := status_code r <? 400.

Inductive outcome : Type :=
| Responds (r : response)
| Fails (msg : string).

Inductive exn : Type :=
| ConnectionError (msg : string)
| JSONDecodeError (msg : string)
| ValueError (msg : string).

(** [isinstance(e, requests.RequestException)]; the decoding error of
    [response.json()] is one (requests 2.27 and later). *)
Definition is_RequestException (e : exn) : bool :=
  match e with
  | ConnectionError _ | JSONDecodeError _ => true
  | ValueError _ => false
  end.

Definition exn_str (e : exn) : string :=
  match e with
  | ConnectionError msg | JSONDecodeError msg | ValueError msg => msg
  end.

Inductive printed : Type :=
| PText (s : string)
| PValue (j : json).

Record world : Type := {
  calls : list http_call;
  stdout : list printed
}.

Definition initial : world := {| calls := []; stdout := [] |}.

(** The environment of the process: the two variables read with
    [os.getenv], the offset of the local time zone from UTC in seconds,
    and the provider, which answers a call knowing the calls before it. *)
Record env : Type := {
  API_KEY : option string;
  ACCESS_TOKEN : option string;
  utc_offset : Z;
  upstream : list http_call -> http_call -> outcome
}.

(** ** The monad of handlers: state and exceptions *)

Inductive result (A : Type) : Type :=
| Ok (a : A)
| Raise (e : exn).
Arguments Ok {A} a.
Arguments Raise {A} e.

Definition M (A : Type) : Type := world -> result A * world.

Definition ret {A} (a : A) : M A := fun w => (Ok a, w).

Definition bind {A B} (m : M A) (k : A -> M B) : M B :=
  fun w => match m w with
           | (Ok a, w') => k a w'
           | (Raise e, w') => (Raise e, w')
           end.

Definition raise {A} (e : exn) : M A := fun w => (Raise e, w).

(** [try: m except requests.RequestException as e: h e] *)
Definition try_except {A} (m : M A) (h : exn -> M A) : M A :=
  fun w => match m w with
           | (Ok a, w') => (Ok a, w')
           | (Raise e, w') =>
               if is_RequestException e then h e w' else (Raise e, w')
           end.

Declare Scope py_scope.
Delimit Scope py_scope with py.
Notation "x <- m ;; k" := (bind m (fun x => k))
  (at level 100, m at next level, right associativity) : py_scope.
Notation "m ;;; k" := (bind m (fun _ => k))
  (at level 100, right associativity) : py_scope.
Local Open Scope py_scope.

Definition print (p : printed) : M unit :=
  fun w => (Ok tt, {| calls := calls w; stdout := stdout w ++ [p] |}).

(** ** Flask responses *)

Record flask_response : Type := {
  status : Z;
  body : json
}.

(** [jsonify(j)] answers 200, [jsonify(j), s] answers [s]. *)
Definition jsonify (j : json) : flask_response := {| status := 200; body := j |}.
Definition jsonify_status (j : json) (s : Z) : flask_response :=
  {| status := s; body := j |}.

(** The status the client sees: Flask answers 500 when the handler lets
    an exception escape. *)
Definition served_status (r : result flask_response) : Z :=
  match r with
  | Ok resp => status resp
  | Raise _ => 500
  end.

Section App.

Variable E : env.

Definition WHATSAPP_API_URL : string :=
  "https://graph.facebook.com/v17.0/139913512540275/messages".

(** One call of [requests]: the call is logged, the provider answers or
    the transport fails. *)
Definition request (c : http_call) : M response :=
  fun w =>
    let w' := {| calls := calls w ++ [c]; stdout := stdout w |} in
    match upstream E (calls w) c with
    | Responds r => (Ok r, w')
    | Fails msg => (Raise (ConnectionError msg), w')
    end.

Definition requests_post (url : string) (j : json)
    (headers : list (string * string)) : M response :=
  request {| call_method := POST; call_url := url; call_headers := headers;
             call_params := []; call_json := Some j |}.

Definition requests_get (url : string) (headers : list (string * string))
    (params : list (string * param_value)) : M response :=
  request {| call_method := GET; call_url := url; call_headers := headers;
             call_params := params; call_json := None |}.

Definition response_json (r : response) : M json :=
  match content r with
  | Json j => ret j
  | NotJson msg => raise (JSONDecodeError msg)
  end.

(** *** [iso_to_unix]

    [datetime.fromisoformat] is modelled on the documented grammar
    [YYYY-MM-DD[*HH[:MM[:SS]]]] (the form of the examples of the routes);
    fractions of a second and UTC offsets are outside the model and are
    refused here.  The string has no offset, so the date is naive and
    [timestamp()] reads it in the local zone, taken with the fixed offset
    [utc_offset E]. *)

Record datetime : Type := {
  year : Z; month : Z; day : Z;
  hour : Z; minute : Z; second : Z
}.

Definition digit (c : ascii) : option Z :=
  let n := Z.of_nat (nat_of_ascii c) in
  if (48 <=? n) && (n <=? 57) then Some (n - 48) else None.

Definition digits2 (a b : ascii) : option Z :=
  x ← digit a; y ← digit b; Some (10 * x + y).

Definition digits4 (a b c d : ascii) : option Z :=
  x ← digits2 a b; y ← digits2 c d; Some (100 * x + y).

Definition is_leap (y : Z) : bool :=
  (y mod 4 =? 0) && (negb (y mod 100 =? 0) || (y mod 400 =? 0)).

Definition DAYS_IN_MONTH : list Z :=
  [-1; 31; 28; 31; 30; 31; 30; 31; 31; 30; 31; 30; 31].

Definition DAYS_BEFORE_MONTH : list Z :=
  [-1; 0; 31; 59; 90; 120; 151; 181; 212; 243; 273; 304; 334].

Definition days_in_month (y m : Z) : Z :=
  if (m =? 2) && is_leap y then 29
  else default 0 (DAYS_IN_MONTH !! Z.to_nat m).

Definition days_before_year (y : Z) : Z :=
  let y := y - 1 in y * 365 + y / 4 - y / 100 + y / 400.

Definition days_before_month (y m : Z) : Z :=
  default 0 (DAYS_BEFORE_MONTH !! Z.to_nat m)
  + (if (2 <? m) && is_leap y then 1 else 0).

Definition ymd2ord (y m d : Z) : Z :=
  days_before_year y + days_before_month y m + d.

Definition parse_date (s : string) : option ((Z * Z * Z) * string) :=
  match s with
  | String y1 (String y2 (String y3 (String y4 (String s1
      (String m1 (String m2 (String s2 (String d1 (String d2 rest))))))))) =>
      if Ascii.eqb s1 "-" && Ascii.eqb s2 "-" then
        y ← digits4 y1 y2 y3 y4; m ← digits2 m1 m2; d ← digits2 d1 d2;
        Some ((y, m, d), rest)
      else None
  | _ => None
  end.

Definition parse_time (s : string) : option (Z * Z * Z) :=
  match s with
  | String h1 (String h2 rest) =>
      hh ← digits2 h1 h2;
      match rest with
      | EmptyString => Some (hh, 0, 0)
      | String c1 (String m1 (String m2 rest)) =>
          if Ascii.eqb c1 ":" then
            mm ← digits2 m1 m2;
            match rest with
            | EmptyString => Some (hh, mm, 0)
            | String c2 (String s1 (String s2 EmptyString)) =>
                if Ascii.eqb c2 ":" then
                  ss ← digits2 s1 s2; Some (hh, mm, ss)
                else None
            | _ => None
            end
          else None
      | _ => None
      end
  | _ => None
  end.

Definition check_fields (dt : datetime) : bool :=
  (1 <=? year dt) && (year dt <=? 9999)
  && (1 <=? month dt) && (month dt <=? 12)
  && (1 <=? day dt) && (day dt <=? days_in_month (year dt) (month dt))
  && (0 <=? hour dt) && (hour dt <=? 23)
  && (0 <=? minute dt) && (minute dt <=? 59)
  && (0 <=? second dt) && (second dt <=? 59).

Definition parse_isoformat (s : string) : option datetime :=
  '(y, m, d, rest) ← parse_date s;
  '(hh, mm, ss) ← match rest with
                   | EmptyString => Some (0, 0, 0)
                   | String _ tstr => parse_time tstr
                   end;
  let dt := {| year := y; month := m; day := d;
               hour := hh; minute := mm; second := ss |} in
  if check_fields dt then Some dt else None.

Definition fromisoformat (s : string) : M datetime :=
  match parse_isoformat s with
  | Some dt => ret dt
  | None => raise (ValueError ("Invalid isoformat string: " +:+ s))
  end.

(** Seconds from 1970-01-01T00:00:00 of the same clock; day 719163 is
    the ordinal of 1970-01-01. *)
Definition seconds_since_epoch (dt : datetime) : Z :=
  (ymd2ord (year dt) (month dt) (day dt) - 719163) * 86400
  + hour dt * 3600 + minute dt * 60 + second dt.

(** [dt.timestamp()] of a naive date: local time. *)
Definition timestamp (dt : datetime) : Z :=
  seconds_since_epoch dt - utc_offset E.

Definition iso_to_unix (iso_timestamp : string) : M Z :=
  dt <- fromisoformat iso_timestamp ;;
  ret (timestamp dt).

(** [datetime.fromtimestamp(t)], the conversion back to a local date:
    the standard library's [_ord2ymd] on the day number. *)
Definition ord2ymd (n : Z) : Z * Z * Z :=
  let n := n - 1 in
  let n400 := n / 146097 in
  let n := n mod 146097 in
  let y := n400 * 400 + 1 in
  let n100 := n / 36524 in
  let n := n mod 36524 in
  let n4 := n / 1461 in
  let n := n mod 1461 in
  let n1 := n / 365 in
  let n := n mod 365 in
  let y := y + n100 * 100 + n4 * 4 + n1 in
  if (n1 =? 4) || (n100 =? 4) then (y - 1, 12, 31)
  else
    let leapyear := (n1 =? 3) && (negb (n4 =? 24) || (n100 =? 3)) in
    let m := Z.shiftr (n + 50) 5 in
    let preceding :=
      default 0 (DAYS_BEFORE_MONTH !! Z.to_nat m)
      + (if (2 <? m) && leapyear then 1 else 0) in
    if n <? preceding then
      let m := m - 1 in
      let preceding :=
        preceding - (default 0 (DAYS_IN_MONTH !! Z.to_nat m)
                     + (if (m =? 2) && leapyear then 1 else 0)) in
      (y, m, n - preceding + 1)
    else (y, m, n - preceding + 1).

Definition fromtimestamp (t : Z) : datetime :=
  let local := t + utc_offset E in
  let days := local / 86400 in
  let secs := local mod 86400 in
  let '(y, m, d) := ord2ymd (days + 719163) in
  {| year := y; month := m; day := d;
     hour := secs / 3600; minute := (secs mod 3600) / 60;
     second := secs mod 60 |}.

(** *** [make_request] *)

Definition make_request (url : string) (headers : list (string * string))
    (params : list (string * param_value)) : M json :=
  try_except
    (response <- requests_get url headers params ;;
     if status_code response =? 200 then response_json response
     else ret (JObj [("error",
                 JStr ("Request failed with status code: "
                       +:+ pretty (status_code response)))]))
    (fun e => ret (JObj [("error", JStr ("Request Exception: " +:+ exn_str e))])).

(** *** [send_message]

    The body of the request is a JSON object: each of its three keys is
    absent or holds a value of the type the schema of the route gives it,
    a list of strings, a string, an object of strings. *)

Record SendRequest : Type := {
  recipients : option (list string);
  template_name : option string;
  template_variables : option (gmap string string)
}.

(** [not recipients] and [not template_name] *)
Definition not_list (o : option (list string)) : bool :=
  match o with
  | None | Some [] => true
  | Some (_ :: _) => false
  end.

Definition not_str (o : option string) : bool :=
  match o with
  | None | Some EmptyString => true
  | Some (String _ _) => false
  end.

(** The key [f'user{i+1}'] *)
Definition user_key (i : nat) : string := "user" +:+ pretty (S i).

Definition text_param (s : string) : json :=
  JObj [("type", JStr "text"); ("text", JStr s)].

Definition payload (recipient name : string) (tv : gmap string string)
    (i : nat) : json :=
  JObj [("messaging_product", JStr "whatsapp");
        ("recipient_type", JStr "individual");
        ("to", JStr recipient);
        ("type", JStr "template");
        ("template", JObj [
           ("name", JStr name);
           ("language", JObj [("code", JStr "en_US")]);
           ("components", JArr [
              JObj [("type", JStr "body");
                    ("parameters", JArr [
                       text_param (default "" (tv !! user_key i));
                       text_param (default "" (tv !! "variable2"));
                       text_param (default "" (tv !! "variable3"))])]])])].

Definition send_headers : list (string * string) :=
  [("Authorization", "Bearer " +:+ str_opt (API_KEY E));
   ("Content-Type", "application/json")].

(** The body of the loop over [enumerate(recipients)]; the dictionary
    [template_variables] is updated in place and carried to the next
    iteration. *)
Fixpoint send_loop (variable_names : list string) (name : string)
    (i : nat) (rs : list string) (tv : gmap string string) : M unit :=
  match rs with
  | [] => ret tt
  | recipient :: rest =>
      let tv :=
        match variable_names !! i with
        | Some v => <[user_key i := v]> tv
        | None => tv
        end in
      response <- requests_post WHATSAPP_API_URL
                    (payload recipient name tv i) send_headers ;;
      response_data <- response_json response ;;
      print (PText ("WhatsApp API Response for " +:+ recipient +:+ ":")) ;;;
      print (PValue response_data) ;;;
      send_loop variable_names name (S i) rest tv
  end.

Definition send_message (message_data : SendRequest) : M flask_response :=
  let template_variables := default ∅ (template_variables message_data) in
  if not_list (recipients message_data) || not_str (template_name message_data)
  then ret (jsonify_status
              (JObj [("error", JStr "Missing required parameters")]) 400)
  else
    let variable_names :=
      split "," (default "" (template_variables !! "variable1")) in
    send_loop variable_names (default "" (template_name message_data)) 0%nat
      (default [] (recipients message_data)) template_variables ;;;
    ret (jsonify_status
           (JObj [("message", JStr "Messages sent successfully!")]) 200).

(** *** The analytics routes

    A body is a JSON object; each key is absent or holds a value of the
    type the schema of the route gives it. *)

Record AnalyticsRequest : Type := {
  start_date : option string;
  end_date : option string;
  granularity : option string;
  template_ids : option (list string)
}.

Definition ACCOUNT_URL : string :=
  "https://graph.facebook.com/v18.0/118254494612532".

Definition get_conversation_analytics (data : AnalyticsRequest)
    : M flask_response :=
  match start_date data, end_date data with
  | Some sd, Some ed =>
      start_unix <- iso_to_unix sd ;;
      end_unix <- iso_to_unix ed ;;
      let granularity := default "MONTHLY" (granularity data) in
      let endpoint := ACCOUNT_URL in
      let params :=
        [("fields", PStr ("conversation_analytics.start(" +:+ pretty start_unix
             +:+ ").end(" +:+ pretty end_unix
             +:+ ").granularity(" +:+ granularity
             +:+ ").phone_numbers([]).dimensions(['CONVERSATION_CATEGORY','CONVERSATION_TYPE','COUNTRY','PHONE'])"));
         ("access_token", param_of_opt (ACCESS_TOKEN E))] in
      response <- requests_get endpoint [] params ;;
      if ok response then
        j <- response_json response ;;
        ret (jsonify j)
      else
        ret (jsonify_status (JObj [("error", JStr (text response))])
               (status_code response))
  | _, _ =>
      ret (jsonify_status
             (JObj [("error", JStr "Start date and end date are required in ISO format in the request body.")])
             400)
  end.

Definition get_template_analytics (data : AnalyticsRequest)
    : M flask_response :=
  let access_token := ACCESS_TOKEN E in
  match start_date data, end_date data, template_ids data with
  | Some sd, Some ed, Some ids =>
      start_unix <- iso_to_unix sd ;;
      end_unix <- iso_to_unix ed ;;
      let granularity := granularity data in
      let template_ids := ids in
      let api_url := ACCOUNT_URL +:+ "/template_analytics" in
      let params :=
        [("start", PInt start_unix);
         ("end", PInt end_unix);
         ("granularity", param_of_opt granularity);
         ("metric_types", PStr "['SENT','DELIVERED','READ','CLICKED']");
         ("template_ids", PList template_ids)] in
      let headers := [("Authorization", "Bearer " +:+ str_opt access_token)] in
      response <- requests_get api_url headers params ;;
      if ok response then
        j <- response_json response ;;
        ret (jsonify j)
      else
        ret (jsonify_status (JObj [("error", JStr (text response))])
               (status_code response))
  | _, _, _ =>
      ret (jsonify_status
             (JObj [("error", JStr "Start date, end date, and template IDs are required in the request body.")])
             400)
  end.

Definition get_messaging_analytics (data : AnalyticsRequest)
    : M flask_response :=
  let access_token := ACCESS_TOKEN E in
  match start_date data, end_date data with
  | Some sd, Some ed =>
      start_unix <- iso_to_unix sd ;;
      end_unix <- iso_to_unix ed ;;
      let granularity := granularity data in
      let url := ACCOUNT_URL in
      let params :=
        [("fields", PStr ("analytics.start(" +:+ pretty start_unix
             +:+ ").end(" +:+ pretty end_unix
             +:+ ").granularity(" +:+ str_opt granularity +:+ ")"));
         ("access_token", param_of_opt access_token)] in
      response <- requests_get url [] params ;;
      if ok response then
        j <- response_json response ;;
        ret (jsonify j)
      else
        ret (jsonify_status (JObj [("error", JStr (text response))])
               (status_code response))
  | _, _ =>
      ret (jsonify_status
             (JObj [("error", JStr "Start date and end date are required in ISO format in the request body.")])
             400)
  end.

(** *** The template and phone number routes *)

Definition bearer_headers : list (string * string) :=
  [("Authorization", "Bearer " +:+ str_opt (ACCESS_TOKEN E))].

Definition TEMPLATES_URL : string := ACCOUNT_URL +:+ "/message_templates".

Definition approved_template : M flask_response :=
  let whatsapp_url := TEMPLATES_URL in
  let whatsapp_headers := bearer_headers in
  let whatsapp_params := [("fields", PStr "name,status"); ("status", PStr "APPROVED")] in
  result <- make_request whatsapp_url whatsapp_headers whatsapp_params ;;
  ret (jsonify result).

Definition rejected_templates : M flask_response :=
  let whatsapp_url := TEMPLATES_URL in
  let whatsapp_headers := bearer_headers in
  let whatsapp_params := [("fields", PStr "name,status"); ("status", PStr "REJECTED")] in
  result <- make_request whatsapp_url whatsapp_headers whatsapp_params ;;
  ret (jsonify result).

Definition approved_template_contents : M flask_response :=
  let whatsapp_url := TEMPLATES_URL in
  let whatsapp_headers := bearer_headers in
  let whatsapp_params := [("fields", PStr "name,status,components"); ("status", PStr "APPROVED")] in
  result <- make_request whatsapp_url whatsapp_headers whatsapp_params ;;
  ret (jsonify result).

Definition rejected_template_contents : M flask_response :=
  let whatsapp_url := TEMPLATES_URL in
  let whatsapp_headers := bearer_headers in
  let whatsapp_params := [("fields", PStr "name,status,components"); ("status", PStr "REJECTED")] in
  result <- make_request whatsapp_url whatsapp_headers whatsapp_params ;;
  ret (jsonify result).

Definition phone_number_status : M flask_response :=
  let whatsapp_url := "https://graph.facebook.com/v18.0/139913512540275" in
  let whatsapp_headers := bearer_headers in
  result <- make_request whatsapp_url whatsapp_headers [] ;;
  ret (jsonify result).

End App.

(** * Vocabulary of the properties *)

(** ** Reading an outbound call *)

Definition call_to (c : http_call) : option json :=
  j ← call_json c; field "to" j.

Definition body_parameters (c : http_call) : option (list json) :=
  j ← call_json c;
  t ← field "template" j;
  cs ← field "components" t;
  match cs with
  | JArr (c0 :: _) =>
      match field "parameters" c0 with
      | Some (JArr ps) => Some ps
      | _ => None
      end
  | _ => None
  end.

Definition text_of (p : json) : option string :=
  match field "text" p with
  | Some (JStr s) => Some s
  | _ => None
  end.

(** The texts of the body parameters of a call, in order. *)
Definition body_texts (c : http_call) : option (list string) :=
  ps ← body_parameters c; mapM text_of ps.

(** The message of the provider's template API: recipient, template
    name and the three texts of the body. *)
Definition template_message (recipient name first second third : string)
    : json :=
  JObj [
    ("messaging_product", JStr "whatsapp");
    ("recipient_type", JStr "individual");
    ("to", JStr recipient);
    ("type", JStr "template");
    ("template", JObj [
       ("name", JStr name);
       ("language", JObj [("code", JStr "en_US")]);
       ("components", JArr [
          JObj [("type", JStr "body");
                ("parameters", JArr [
                   JObj [("type", JStr "text"); ("text", JStr first)];
                   JObj [("type", JStr "text"); ("text", JStr second)];
                   JObj [("type", JStr "text"); ("text", JStr third)]])]])])].

(** The provider answers every call with a body that decodes as JSON;
    the status of the answer is free. *)
Definition answers_json (E : env) : Prop :=
  forall h c, exists r j, upstream E h c = Responds r /\ content r = Json j.

(** The call [send_message] issues for a recipient. *)
Definition send_call (E : env) (recipient name : string)
    (tv : gmap string string) (i : nat) : http_call :=
  {| call_method := POST; call_url := WHATSAPP_API_URL;
     call_headers := send_headers E; call_params := [];
     call_json := Some (payload recipient name tv i) |}.

(** The calls of the loop when none of them raises. *)
Fixpoint loop_calls (E : env) (variable_names : list string) (name : string)
    (i : nat) (rs : list string) (tv : gmap string string) : list http_call :=
  match rs with
  | [] => []
  | recipient :: rest =>
      let tv :=
        match variable_names !! i with
        | Some v => <[user_key i := v]> tv
        | None => tv
        end in
      send_call E recipient name tv i
      :: loop_calls E variable_names name (S i) rest tv
  end.

(** ** [send_message] as a whole *)

Definition SUCCESS : flask_response :=
  {| status := 200;
     body := JObj [("message", JStr "Messages sent successfully!")] |}.

Definition MISSING : flask_response :=
  {| status := 400;
     body := JObj [("error", JStr "Missing required parameters")] |}.

(** The arguments of a request that passes the guard of the route. *)
Definition names_of (req : SendRequest) : list string :=
  split "," (default "" (default ∅ (template_variables req) !! "variable1")).

(** ** Providers used in the examples *)

Definition provider (f : list http_call -> http_call -> outcome) : env :=
  {| API_KEY := Some "key"; ACCESS_TOKEN := Some "token"; utc_offset := 0;
     upstream := f |}.

(** Every call is answered with the same response. *)
Definition always (r : response) : env := provider (fun _ _ => Responds r).

Definition accepted : response :=
  {| status_code := 200; text := "[]"; content := Json (JArr []) |}.

Definition refused : response :=
  {| status_code := 500; text := "{}"; content := Json (JObj []) |}.

(** The transport fails on every call. *)
Definition unreachable : env := provider (fun _ _ => Fails "connection refused").

(** The transport fails on the first call only. *)
Definition first_call_fails : env :=
  provider (fun h _ => match h with
                       | [] => Fails "timed out"
                       | _ :: _ => Responds accepted
                       end).

(** ** Requests used in the examples *)

Definition two_recipients (name : string) : SendRequest :=
  {| recipients := Some ["a"; "b"];
     template_name := Some name;
     template_variables :=
       Some {[ "variable1" := "X,Y"; "variable2" := "V2"; "variable3" := "V3" ]} |}.

(** One name for two recipients, and a key [user2] of the caller. *)
Definition caller_user2 : SendRequest :=
  {| recipients := Some ["a"; "b"];
     template_name := Some "hello";
     template_variables := Some {[ "variable1" := "X"; "user2" := "Z" ]} |}.

(** ** The routes on [make_request] *)

Definition pass_through_routes (E : env) : list (M flask_response) :=
  [approved_template E; rejected_templates E; approved_template_contents E;
   rejected_template_contents E; phone_number_status E].

(** What [make_request] returns for an answer of the provider. *)
Definition make_request_result (r : response) : json :=
  if status_code r =? 200 then
    match content r with
    | Json j => j
    | NotJson msg => JObj [("error", JStr ("Request Exception: " +:+ msg))]
    end
  else JObj [("error", JStr ("Request failed with status code: "
                             +:+ pretty (status_code r)))].

(** ** The analytics routes *)

Definition analytics_routes (E : env)
    : list (AnalyticsRequest -> M flask_response) :=
  [get_conversation_analytics E; get_template_analytics E;
   get_messaging_analytics E].

(** The GET the routes issue. *)
Definition get_call (url : string) (headers : list (string * string))
    (params : list (string * param_value)) : http_call :=
  {| call_method := GET; call_url := url; call_headers := headers;
     call_params := params; call_json := None |}.

Definition with_granularity (data : AnalyticsRequest) (g : option string)
    : AnalyticsRequest :=
  {| start_date := start_date data; end_date := end_date data;
     granularity := g; template_ids := template_ids data |}.

(** ** Timestamps *)

(** The days from 1970-01-01 to a date, counted on the calendar: whole
    years of 365 or 366 days, then whole months, then days. *)
Definition year_length (y : Z) : Z := if is_leap y then 366 else 365.

Fixpoint days_of_years (y : Z) (n : nat) : Z :=
  match n with
  | O => 0
  | S n => year_length y + days_of_years (y + 1) n
  end.

Fixpoint days_of_months (y m : Z) (n : nat) : Z :=
  match n with
  | O => 0
  | S n => days_in_month y m + days_of_months y (m + 1) n
  end.

Definition calendar_days (y m d : Z) : Z :=
  days_of_years 1970 (Z.to_nat (y - 1970))
  + days_of_months y 1 (Z.to_nat (m - 1))
  + (d - 1).

Definition calendar_seconds (dt : datetime) : Z :=
  calendar_days (year dt) (month dt) (day dt) * 86400
  + hour dt * 3600 + minute dt * 60 + second dt.

Definition first_of_december_2023 : datetime :=
  {| year := 2023; month := 12; day := 1;
     hour := 0; minute := 0; second := 0 |}.

(** ** Vocabulary of the further properties *)

(** The headers of every call of [send_message]. *)
Definition is_send_call (E : env) (c : http_call) : Prop :=
  call_method c = POST
  /\ call_url c = WHATSAPP_API_URL
  /\ call_headers c
     = [("Authorization", "Bearer " +:+ str_opt (API_KEY E));
        ("Content-Type", "application/json")]
  /\ call_params c = [].

(** The two lines printed for a recipient. *)
Definition printed_lines (recipient : string) (response_data : json)
    : list printed :=
  [PText ("WhatsApp API Response for " +:+ recipient +:+ ":");
   PValue response_data].

(** The guard of [/send]: [recipients] absent or empty, [template_name]
    absent or empty. *)
Definition missing_parameters (req : SendRequest) : Prop :=
  recipients req = None \/ recipients req = Some []
  \/ template_name req = None \/ template_name req = Some "".

Definition with_template_ids (data : AnalyticsRequest)
    (ids : option (list string)) : AnalyticsRequest :=
  {| start_date := start_date data; end_date := end_date data;
     granularity := granularity data; template_ids := ids |}.

(** The occurrences of a character in a string. *)
Fixpoint occurrences (c : ascii) (s : string) : nat :=
  match s with
  | EmptyString => 0
  | String a rest =>
      ((if Ascii.eqb a c then 1 else 0) + occurrences c rest)%nat
  end.

(** [sep.join(l)] *)
Definition join (sep : ascii) (l : list string) : string :=
  String.concat (String sep EmptyString) l.

(** A date and time comes before another: the order of the fields, from
    the year down to the second. *)
Definition before (a b : datetime) : Prop :=
  year a < year b
  \/ (year a = year b
      /\ (month a < month b
          \/ (month a = month b
              /\ (day a < day b
                  \/ (day a = day b
                      /\ (hour a < hour b
                          \/ (hour a = hour b
                              /\ (minute a < minute b
                                  \/ (minute a = minute b
                                      /\ second a < second b))))))))).

(** An analytics body that passes the guard of its route, with dates
    that parse. *)
Definition accepted_by (E : env) (route : AnalyticsRequest -> M flask_response)
    (data : AnalyticsRequest) : Prop :=
  route ∈ analytics_routes E
  /\ (exists sd s, start_date data = Some sd /\ parse_isoformat sd = Some s)
  /\ (exists ed e, end_date data = Some ed /\ parse_isoformat ed = Some e)
  /\ (route = get_template_analytics E -> is_Some (template_ids data)).

(** The tail of the analytics routes: the answer made from a response
    of the provider. *)
Definition relayed (r : response) : result flask_response :=
  if ok r then
    match content r with
    | Json j => Ok (jsonify j)
    | NotJson msg => Raise (JSONDecodeError msg)
    end
  else Ok (jsonify_status (JObj [("error", JStr (text r))]) (status_code r)).

(** A body for December 2023. *)
Definition december : AnalyticsRequest :=
  {| start_date := Some "2023-12-01T00:00:00";
     end_date := Some "2023-12-31T00:00:00";
     granularity := Some "DAILY"; template_ids := Some ["t1"] |}.

(** One recipient, no [variable1], and a key [user1] of the caller. *)
Definition caller_user1 : SendRequest :=
  {| recipients := Some ["a"]; template_name := Some "hello";
     template_variables := Some {[ "user1" := "Z" ]} |}.

(** * Properties *)

(** ** Keys *)

Lemma user_key_inj i j : user_key i = user_key j -> i = j.
Proof.
  unfold user_key. intros H.
  apply (inj (String.app "user")), (inj pretty) in H. by injection H.
Qed.

Lemma user_key_fresh (k : string) :
  k = "variable2" \/ k = "variable3" -> forall j, k <> user_key j.
Proof. intros [-> | ->] j; unfold user_key; simpl; discriminate. Qed.

Lemma split_nonempty sep s : exists hd tl, split sep s = hd :: tl.
Proof.
  induction s as [| c s IH]; simpl; [by eauto |].
  destruct (Ascii.eqb c sep); [by eauto |].
  destruct IH as (hd & tl & ->). eauto.
Qed.

(** ** The loop *)

Lemma send_loop_run E names name :
  answers_json E ->
  forall rs i tv w, exists out,
    send_loop E names name i rs tv w
    = (Ok tt, {| calls := calls w ++ loop_calls E names name i rs tv;
                 stdout := stdout w ++ out |}).
Proof.
  intros HE rs. induction rs as [| r rest IH]; intros i tv w; simpl.
  - exists []. unfold ret. rewrite !app_nil_r. by destruct w.
  - set (tv' := match names !! i with
                | Some v => <[user_key i:=v]> tv
                | None => tv
                end).
    unfold bind at 1, requests_post, request.
    destruct (HE (calls w) (send_call E r name tv' i)) as (resp & j & Hup & Hj).
    unfold send_call in Hup. rewrite Hup.
    unfold bind at 1, response_json. rewrite Hj. unfold ret at 1.
    unfold bind at 1, print at 1. unfold bind at 1, print at 1. simpl.
    edestruct (IH (S i) tv') as (out & ->). simpl.
    eexists. rewrite <- !app_assoc. simpl. reflexivity.
Qed.

Lemma loop_calls_length E names name rs :
  forall i tv, length (loop_calls E names name i rs tv) = length rs.
Proof. induction rs; intros; simpl; [done | by rewrite IHrs]. Qed.

(** The call of position [k]: its dictionary binds [user{i+k+1}] to the
    name of that position when there is one and to what the request gave
    otherwise, and agrees with the request on the keys that are not
    [user] keys. *)
Lemma loop_calls_lookup E names name rs :
  forall i tv k r, rs !! k = Some r ->
  exists tv',
    loop_calls E names name i rs tv !! k
    = Some (send_call E r name tv' (i + k))
    /\ tv' !! user_key (i + k)
       = match names !! (i + k)%nat with
         | Some v => Some v
         | None => tv !! user_key (i + k)
         end
    /\ forall key, (forall j, key <> user_key j) -> tv' !! key = tv !! key.
Proof.
  induction rs as [| r0 rest IH]; intros i tv k r Hk; [done |].
  destruct k as [| k]; simpl in *.
  - injection Hk as ->. rewrite Nat.add_0_r. eexists. split; [done |].
    destruct (names !! i) as [v |]; split; try done.
    + by rewrite lookup_insert_eq.
    + intros key Hkey. rewrite lookup_insert_ne; [done |]. by apply not_eq_sym.
  - destruct (IH (S i) (match names !! i with
                        | Some v => <[user_key i:=v]> tv
                        | None => tv
                        end) k r Hk) as (tv' & Hc & Hu & Ho).
    replace (i + S k)%nat with (S i + k)%nat by lia.
    exists tv'. split; [done |]. split.
    + rewrite Hu. destruct (names !! (S i + k)%nat); [done |].
      destruct (names !! i); [| done].
      rewrite lookup_insert_ne; [done |].
      intros H. apply user_key_inj in H. lia.
    + intros key Hkey. rewrite Ho by done.
      destruct (names !! i); [| done].
      rewrite lookup_insert_ne; [done |]. by apply not_eq_sym.
Qed.

(** ** [send_message] as a whole *)

Lemma send_message_run E req rs name :
  recipients req = Some rs -> rs <> [] ->
  template_name req = Some name -> name <> "" ->
  answers_json E ->
  forall w, exists out,
    send_message E req w
    = (Ok SUCCESS,
       {| calls := calls w ++ loop_calls E (names_of req) name 0 rs
                                 (default ∅ (template_variables req));
          stdout := stdout w ++ out |}).
Proof.
  intros Hrs Hne Hname Hnm HE w. unfold send_message.
  rewrite Hrs, Hname. destruct rs as [| r rest]; [done |].
  destruct name as [| a name]; [done |]. simpl negb. cbn [not_list not_str orb].
  unfold bind at 1.
  edestruct (send_loop_run E (names_of req) (String a name) HE (r :: rest) 0%nat)
    as (out & Hrun).
  unfold names_of in *. cbn [default] in *. rewrite Hrun.
  exists out. reflexivity.
Qed.

Lemma send_message_call E req rs name i r :
  recipients req = Some rs ->
  template_name req = Some name -> name <> "" ->
  answers_json E ->
  rs !! i = Some r ->
  exists tv',
    calls (send_message E req initial).2 !! i = Some (send_call E r name tv' i)
    /\ tv' !! user_key i
       = match names_of req !! i with
         | Some v => Some v
         | None => default ∅ (template_variables req) !! user_key i
         end
    /\ forall key, (forall j, key <> user_key j) ->
         tv' !! key = default ∅ (template_variables req) !! key.
Proof.
  intros Hrs Hname Hnm HE Hi.
  assert (rs <> []) as Hne by (intros ->; done).
  destruct (send_message_run E req rs name Hrs Hne Hname Hnm HE initial)
    as (out & ->).
  simpl.
  destruct (loop_calls_lookup E (names_of req) name rs 0
              (default ∅ (template_variables req)) i r Hi) as (tv' & H1 & H2 & H3).
  exists tv'. auto.
Qed.

Lemma body_texts_send_call E r name tv i :
  body_texts (send_call E r name tv i)
  = Some [default "" (tv !! user_key i);
          default "" (tv !! "variable2");
          default "" (tv !! "variable3")].
Proof. reflexivity. Qed.

Lemma always_answers_json r j : content r = Json j -> answers_json (always r).
Proof. intros H h c. exists r, j. by split. Qed.

(** ** The guard of [/send] *)

(** C3.  A request to [/send] whose [recipients] is absent or empty, or
    whose [template_name] is absent, is answered 400 with the body
    [{"error": "Missing required parameters"}], and the world is left as
    it was: no call is issued for any recipient. *)
Theorem send_missing_parameters E req w :
  recipients req = None \/ recipients req = Some [] \/ template_name req = None ->
  send_message E req w = (Ok MISSING, w).
Proof.
  intros H. unfold send_message.
  destruct H as [-> | [-> | ->]]; try reflexivity.
  by rewrite orb_true_r.
Qed.

Lemma send_missing_parameters_witness :
  send_message unreachable
    {| recipients := Some []; template_name := Some "hello";
       template_variables := None |} initial
  = (Ok MISSING, initial).
Proof.
  apply (send_missing_parameters unreachable
           {| recipients := Some []; template_name := Some "hello";
              template_variables := None |} initial).
  right. left. reflexivity.
Defined.

(** ** The payload *)

(** C6.  The call issued for the recipient of position [i] carries the
    JSON object with [messaging_product], [recipient_type], [to] (the
    recipient), [type = "template"], [template.name] (the name of the
    request), [template.language.code = "en_US"], one component of type
    [body] and exactly three parameters [{type: "text", text: _}]; the
    second text is [variable2] of the request and the third [variable3]
    (the empty string when absent), whatever the position. *)
Theorem send_payload_shape E req rs name i r :
  recipients req = Some rs ->
  template_name req = Some name -> name <> "" ->
  answers_json E ->
  rs !! i = Some r ->
  let tv := default ∅ (template_variables req) in
  exists first,
    calls (send_message E req initial).2 !! i ≫= call_json
    = Some (template_message r name first
              (default "" (tv !! "variable2"))
              (default "" (tv !! "variable3"))).
Proof.
  intros Hrs Hname Hnm HE Hi tv.
  destruct (send_message_call E req rs name i r Hrs Hname Hnm HE Hi)
    as (tv' & -> & _ & Hother).
  exists (default "" (tv' !! user_key i)). simpl.
  unfold payload, text_param, template_message.
  rewrite (Hother "variable2"), (Hother "variable3")
    by (apply user_key_fresh; auto).
  reflexivity.
Qed.

(** ** The first parameter *)

(** C1, amended.  [names] is [variable1] split on [','], and a missing
    [variable1] gives the one name [""].  The first text of the call of
    position [i] is [names[i]] when there is one, and otherwise what the
    request holds under [user{i+1}], the empty string when it holds
    nothing.  A request of one recipient without [variable1], [variable2]
    and [variable3] sends three empty texts. *)
Theorem send_first_parameter E req rs name :
  recipients req = Some rs ->
  template_name req = Some name -> name <> "" ->
  answers_json E ->
  let tv := default ∅ (template_variables req) in
  let names := split "," (default "" (tv !! "variable1")) in
  (tv !! "variable1" = None -> names = [""])
  /\ (forall i r, rs !! i = Some r ->
      exists c second third,
        calls (send_message E req initial).2 !! i = Some c
        /\ body_texts c
           = Some [match names !! i with
                   | Some v => v
                   | None => default "" (tv !! user_key i)
                   end; second; third])
  /\ (forall r, rs = [r] ->
      tv !! "variable1" = None -> tv !! "variable2" = None ->
      tv !! "variable3" = None ->
      exists c,
        calls (send_message E req initial).2 = [c]
        /\ body_texts c = Some [""; ""; ""]).
Proof.
  intros Hrs Hname Hnm HE tv names. split; [| split].
  - intros H. unfold names. by rewrite H.
  - intros i r Hi.
    destruct (send_message_call E req rs name i r Hrs Hname Hnm HE Hi)
      as (tv' & Hc & Hu & _).
    eexists _, _, _. split; [exact Hc |].
    rewrite body_texts_send_call, Hu. fold tv. unfold names_of. fold tv. fold names.
    by destruct (names !! i).
  - intros r -> H1 H2 H3.
    destruct (send_message_run E req [r] name Hrs ltac:(done) Hname Hnm HE initial)
      as (out & ->).
    unfold names_of. fold tv. rewrite H1. simpl.
    eexists. split; [reflexivity |].
    rewrite body_texts_send_call, lookup_insert_eq.
    rewrite !lookup_insert_ne by (unfold user_key; simpl; discriminate).
    by rewrite H2, H3.
Qed.

(** C9.  The synthesized keys live in the dictionary of the request: at
    a position [i] with no name ([i >= len(names)]), a key [user{i+1}]
    supplied by the caller gives the first text of that recipient. *)
Theorem send_user_key_shared E req rs name i r v :
  recipients req = Some rs ->
  template_name req = Some name -> name <> "" ->
  answers_json E ->
  rs !! i = Some r ->
  let tv := default ∅ (template_variables req) in
  let names := split "," (default "" (tv !! "variable1")) in
  (length names <= i)%nat ->
  tv !! user_key i = Some v ->
  exists c second third,
    calls (send_message E req initial).2 !! i = Some c
    /\ body_texts c = Some [v; second; third].
Proof.
  intros Hrs Hname Hnm HE Hi tv names Hlen Hv.
  destruct (send_message_call E req rs name i r Hrs Hname Hnm HE Hi)
    as (tv' & Hc & Hu & _).
  eexists _, _, _. split; [exact Hc |].
  rewrite body_texts_send_call, Hu. unfold names_of. fold tv. fold names.
  rewrite (lookup_ge_None_2 names i Hlen). fold tv. by rewrite Hv.
Qed.

Lemma send_payload_shape_witness :
  exists first,
    calls (send_message (always refused) (two_recipients "hello") initial).2
      !! 1%nat ≫= call_json
    = Some (template_message "b" "hello" first "V2" "V3").
Proof.
  exact (send_payload_shape (always refused) (two_recipients "hello")
           ["a"; "b"] "hello" 1 "b" eq_refl eq_refl ltac:(discriminate)
           (always_answers_json refused (JObj []) eq_refl) eq_refl).
Defined.

Lemma send_user_key_shared_witness :
  exists c second third,
    calls (send_message (always accepted) caller_user2 initial).2 !! 1%nat
    = Some c
    /\ body_texts c = Some ["Z"; second; third].
Proof.
  apply (send_user_key_shared (always accepted) caller_user2
           ["a"; "b"] "hello" 1 "b" "Z");
    [reflexivity | reflexivity | discriminate
    | apply (always_answers_json accepted (JArr [])); reflexivity
    | reflexivity | vm_compute; lia | reflexivity].
Defined.

(** C1 as stated fails: with one name for two recipients, the second
    position has no name, yet its first text is the caller's [user2]
    and not the empty string. *)
Lemma send_first_parameter_counterexample :
  let names := split "," "X" in
  let sent := calls (send_message (always accepted) caller_user2 initial).2 in
  names !! 1%nat = None
  /\ sent !! 1%nat ≫= body_texts = Some ["Z"; ""; ""]
  /\ sent !! 1%nat ≫= body_texts <> Some [""; ""; ""].
Proof. vm_compute. repeat split; discriminate. Qed.

Lemma send_first_parameter_witness :
  exists c,
    calls (send_message (always accepted)
             {| recipients := Some ["a"]; template_name := Some "hello";
                template_variables := None |} initial).2 = [c]
    /\ body_texts c = Some [""; ""; ""].
Proof.
  destruct (send_first_parameter (always accepted)
              {| recipients := Some ["a"]; template_name := Some "hello";
                 template_variables := None |} ["a"] "hello"
              eq_refl eq_refl ltac:(discriminate)
              (always_answers_json accepted (JArr []) eq_refl))
    as (_ & _ & H).
  apply (H "a"); reflexivity.
Defined.

(** ** One call per recipient *)

Lemma loop_calls_to E names name rs :
  forall i tv,
    map call_to (loop_calls E names name i rs tv)
    = map (fun r => Some (JStr r)) rs.
Proof. induction rs; intros; simpl; [done | by rewrite IHrs]. Qed.

(** C2.  For the recipients ["a"; "b"] and the variables
    [variable1 = "X,Y"], [variable2 = "V2"], [variable3 = "V3"], one
    message is sent per recipient, in the order of the list: the one to
    "a" with the texts X, V2, V3 and the one to "b" with Y, V2, V3. *)
Theorem send_two_recipients E name :
  name <> "" ->
  answers_json E ->
  let sent := calls (send_message E (two_recipients name) initial).2 in
  map call_json sent
  = [Some (template_message "a" name "X" "V2" "V3");
     Some (template_message "b" name "Y" "V2" "V3")].
Proof.
  intros Hnm HE sent. unfold sent.
  destruct (send_message_run E (two_recipients name) ["a"; "b"] name
              eq_refl ltac:(done) eq_refl Hnm HE initial) as (out & ->).
  vm_compute. reflexivity.
Qed.

Lemma send_two_recipients_witness :
  map call_json
    (calls (send_message (always accepted) (two_recipients "hello") initial).2)
  = [Some (template_message "a" "hello" "X" "V2" "V3");
     Some (template_message "b" "hello" "Y" "V2" "V3")].
Proof.
  apply (send_two_recipients (always accepted) "hello");
    [discriminate | apply (always_answers_json accepted (JArr [])); reflexivity].
Defined.

(** ** Failures of the provider *)

(** C4 as stated fails: when the call for "a" raises, the handler lets
    the exception escape; the answer is 500 and not the success, and no
    call is issued for "b". *)
Lemma send_reports_success_counterexample :
  let run := send_message first_call_fails (two_recipients "hello") initial in
  run.1 = Raise (ConnectionError "timed out")
  /\ served_status run.1 = 500
  /\ map call_to (calls run.2) = [Some (JStr "a")].
Proof. vm_compute. repeat split. Qed.

(** C4, amended.  For a request with recipients and a non-empty template
    name, when every call is answered with a body that decodes as JSON,
    whatever the status of the answers, every recipient gets its call, in
    the order of the list, and the response is 200 with
    [{"message": "Messages sent successfully!"}]. *)
Theorem send_reports_success E req rs name :
  recipients req = Some rs -> rs <> [] ->
  template_name req = Some name -> name <> "" ->
  answers_json E ->
  let run := send_message E req initial in
  run.1 = Ok SUCCESS
  /\ map call_to (calls run.2) = map (fun r => Some (JStr r)) rs.
Proof.
  intros Hrs Hne Hname Hnm HE run. unfold run.
  destruct (send_message_run E req rs name Hrs Hne Hname Hnm HE initial)
    as (out & ->).
  split; [reflexivity |]. simpl. apply loop_calls_to.
Qed.

Lemma send_reports_success_witness :
  let run := send_message (always refused) (two_recipients "hello") initial in
  run.1 = Ok SUCCESS
  /\ map call_to (calls run.2) = [Some (JStr "a"); Some (JStr "b")].
Proof.
  apply (send_reports_success (always refused) (two_recipients "hello")
           ["a"; "b"] "hello");
    [reflexivity | discriminate | reflexivity | discriminate
    | apply (always_answers_json refused (JObj [])); reflexivity].
Defined.

(** ** The routes on [make_request] *)

Lemma make_request_run E r url headers params w :
  (forall h c, upstream E h c = Responds r) ->
  exists w', make_request E url headers params w
             = (Ok (make_request_result r), w').
Proof.
  intros HE. unfold make_request, try_except, bind, requests_get, request.
  rewrite HE. unfold make_request_result, response_json.
  destruct (status_code r =? 200); [| by eexists].
  destruct (content r); by eexists.
Qed.

Lemma pass_through_run E r route w :
  (forall h c, upstream E h c = Responds r) ->
  route ∈ pass_through_routes E ->
  (route w).1 = Ok (jsonify (make_request_result r)).
Proof.
  intros HE Hin. unfold pass_through_routes in Hin.
  repeat (apply elem_of_cons in Hin as [-> | Hin]);
    [| | | | | by apply elem_of_nil in Hin];
    unfold approved_template, rejected_templates, approved_template_contents,
      rejected_template_contents, phone_number_status, bind;
    match goal with
    | |- context [make_request E ?u ?h ?p w] =>
        destruct (make_request_run E r u h p w HE) as (w' & ->)
    end; reflexivity.
Qed.

(** C5 as stated fails: an answer 500 of the provider is not relayed
    with its status and body; the route answers 200 with an envelope
    of its own that quotes the status. *)
Lemma pass_through_relay_counterexample :
  let run := approved_template (always refused) initial in
  run.1 = Ok {| status := 200;
                body := JObj [("error",
                         JStr "Request failed with status code: 500")] |}
  /\ served_status run.1 <> status_code refused
  /\ content refused = Json (JObj []).
Proof. vm_compute. repeat split. discriminate. Qed.

(** C5, amended.  Each of the five routes answers 200 in both cases.
    When the provider answers 200 with a JSON body, that body is
    returned unchanged.  When the provider answers another status [s],
    the body returned is
    [{"error": "Request failed with status code: s"}]. *)
Theorem pass_through_relay E r route w :
  (forall h c, upstream E h c = Responds r) ->
  route ∈ pass_through_routes E ->
  (forall j, status_code r = 200 -> content r = Json j ->
     (route w).1 = Ok {| status := 200; body := j |})
  /\ (status_code r <> 200 ->
      (route w).1
      = Ok {| status := 200;
              body := JObj [("error",
                       JStr ("Request failed with status code: "
                             +:+ pretty (status_code r)))] |}).
Proof.
  intros HE Hin. rewrite (pass_through_run E r route w HE Hin).
  unfold make_request_result, jsonify. split.
  - intros j -> ->. reflexivity.
  - intros Hs. apply Z.eqb_neq in Hs. by rewrite Hs.
Qed.

Lemma pass_through_relay_witness :
  (phone_number_status (always accepted) initial).1
  = Ok {| status := 200; body := JArr [] |}.
Proof.
  destruct (pass_through_relay (always accepted) accepted
              (phone_number_status (always accepted)) initial
              (fun _ _ => eq_refl)) as [H _].
  - unfold pass_through_routes. set_solver.
  - apply H; reflexivity.
Defined.

(** ** The analytics routes *)

(** C8.  Each analytics route answers 400 to a body without
    [start_date] or without [end_date], and leaves the world as it was:
    no call to the provider is issued. *)
Theorem analytics_missing_dates E route data w :
  route ∈ analytics_routes E ->
  start_date data = None \/ end_date data = None ->
  exists error,
    route data w = (Ok {| status := 400; body := JObj [("error", JStr error)] |}, w).
Proof.
  intros Hin Hmiss. unfold analytics_routes in Hin.
  repeat (apply elem_of_cons in Hin as [-> | Hin]);
    [| | | by apply elem_of_nil in Hin];
    unfold get_conversation_analytics, get_template_analytics,
      get_messaging_analytics;
    destruct Hmiss as [-> | ->]; destruct (start_date data);
    by eexists.
Qed.

Lemma analytics_missing_dates_witness :
  exists error,
    get_template_analytics unreachable
      {| start_date := Some "2023-12-01T00:00:00"; end_date := None;
         granularity := Some "DAILY"; template_ids := Some ["t1"] |} initial
    = (Ok {| status := 400; body := JObj [("error", JStr error)] |}, initial).
Proof.
  apply (analytics_missing_dates unreachable (get_template_analytics unreachable)).
  - unfold analytics_routes. set_solver.
  - right. reflexivity.
Defined.

Lemma iso_to_unix_run E s dt w :
  parse_isoformat s = Some dt ->
  iso_to_unix E s w = (Ok (timestamp E dt), w).
Proof.
  intros H. unfold iso_to_unix, bind, fromisoformat. by rewrite H.
Qed.

Lemma bind_iso_to_unix {A} E s dt (k : Z -> M A) w :
  parse_isoformat s = Some dt ->
  bind (iso_to_unix E s) k w = k (timestamp E dt) w.
Proof. intros H. unfold bind at 1. by rewrite (iso_to_unix_run E s dt w H). Qed.

(** The calls after a GET followed by the tail of the analytics routes. *)
Lemma relay_calls E c (k : response -> M flask_response) w :
  (forall r w', calls (k r w').2 = calls w') ->
  calls (bind (request E c) k w).2 = (calls w ++ [c])%list.
Proof.
  intros Hk. unfold bind, request.
  destruct (upstream E (calls w) c); [by rewrite Hk | done].
Qed.

Lemma relay_tail_calls (r : response) (w : world) :
  calls ((if ok r then
            j <- response_json r ;; ret (jsonify j)
          else ret (jsonify_status (JObj [("error", JStr (text r))])
                      (status_code r))) w).2 = calls w.
Proof.
  destruct (ok r); [| done].
  unfold bind, response_json. by destruct (content r).
Qed.

(** C10.  A body of [/conversation_analytics] with both dates and no
    [granularity] is handled as the same body with
    [granularity = "MONTHLY"]: the provider is called, with MONTHLY in
    the query.  The other two routes have no default: without
    [granularity], [/messaging_analytics] formats the absent value into
    the query and [/template_analytics] passes it on as an absent
    parameter. *)
Theorem conversation_default_granularity E data sd ed s e w :
  start_date data = Some sd -> end_date data = Some ed ->
  granularity data = None ->
  parse_isoformat sd = Some s -> parse_isoformat ed = Some e ->
  let start_unix := pretty (timestamp E s) in
  let end_unix := pretty (timestamp E e) in
  get_conversation_analytics E data w
  = get_conversation_analytics E (with_granularity data (Some "MONTHLY")) w
  /\ calls (get_conversation_analytics E data w).2
     = (calls w ++ [get_call ACCOUNT_URL []
         [("fields", PStr ("conversation_analytics.start(" +:+ start_unix
             +:+ ").end(" +:+ end_unix
             +:+ ").granularity(MONTHLY).phone_numbers([]).dimensions(['CONVERSATION_CATEGORY','CONVERSATION_TYPE','COUNTRY','PHONE'])"));
          ("access_token", param_of_opt (ACCESS_TOKEN E))]])%list
  /\ calls (get_messaging_analytics E data w).2
     = (calls w ++ [get_call ACCOUNT_URL []
         [("fields", PStr ("analytics.start(" +:+ start_unix
             +:+ ").end(" +:+ end_unix +:+ ").granularity(None)"));
          ("access_token", param_of_opt (ACCESS_TOKEN E))]])%list
  /\ (forall ids, template_ids data = Some ids ->
      calls (get_template_analytics E data w).2
      = (calls w ++ [get_call (ACCOUNT_URL +:+ "/template_analytics")
          [("Authorization", "Bearer " +:+ str_opt (ACCESS_TOKEN E))]
          [("start", PInt (timestamp E s));
           ("end", PInt (timestamp E e));
           ("granularity", PNone);
           ("metric_types", PStr "['SENT','DELIVERED','READ','CLICKED']");
           ("template_ids", PList ids)]])%list).
Proof.
  intros Hsd Hed Hg Hs He start_unix end_unix.
  repeat split.
  - unfold get_conversation_analytics, with_granularity. simpl.
    by rewrite Hsd, Hed, Hg.
  - unfold get_conversation_analytics. rewrite Hsd, Hed, Hg.
    rewrite (bind_iso_to_unix E sd s _ w Hs), (bind_iso_to_unix E ed e _ w He).
    unfold requests_get. rewrite relay_calls; [| apply relay_tail_calls].
    reflexivity.
  - unfold get_messaging_analytics. rewrite Hsd, Hed, Hg.
    rewrite (bind_iso_to_unix E sd s _ w Hs), (bind_iso_to_unix E ed e _ w He).
    unfold requests_get. rewrite relay_calls; [| apply relay_tail_calls].
    reflexivity.
  - intros ids Hids. unfold get_template_analytics. rewrite Hsd, Hed, Hg, Hids.
    rewrite (bind_iso_to_unix E sd s _ w Hs), (bind_iso_to_unix E ed e _ w He).
    unfold requests_get. rewrite relay_calls; [| apply relay_tail_calls].
    reflexivity.
Qed.

Lemma conversation_default_granularity_witness :
  calls (get_conversation_analytics (always accepted)
           {| start_date := Some "2023-12-01T00:00:00";
              end_date := Some "2023-12-31T00:00:00";
              granularity := None; template_ids := None |} initial).2
  = [get_call ACCOUNT_URL []
       [("fields", PStr "conversation_analytics.start(1701388800).end(1703980800).granularity(MONTHLY).phone_numbers([]).dimensions(['CONVERSATION_CATEGORY','CONVERSATION_TYPE','COUNTRY','PHONE'])");
        ("access_token", PStr "token")]].
Proof.
  destruct (conversation_default_granularity (always accepted)
              {| start_date := Some "2023-12-01T00:00:00";
                 end_date := Some "2023-12-31T00:00:00";
                 granularity := None; template_ids := None |}
              "2023-12-01T00:00:00" "2023-12-31T00:00:00"
              {| year := 2023; month := 12; day := 1;
                 hour := 0; minute := 0; second := 0 |}
              {| year := 2023; month := 12; day := 31;
                 hour := 0; minute := 0; second := 0 |}
              initial eq_refl eq_refl eq_refl eq_refl eq_refl)
    as (_ & H & _).
  exact H.
Defined.

(** ** Timestamps *)

Lemma days_before_year_succ y :
  days_before_year (y + 1) - days_before_year y = year_length y.
Proof.
  unfold days_before_year, year_length, is_leap.
  replace (y + 1 - 1) with y by lia.
  destruct (y mod 4 =? 0) eqn:H4; destruct (y mod 100 =? 0) eqn:H100;
    destruct (y mod 400 =? 0) eqn:H400; simpl;
    rewrite ?Z.eqb_eq, ?Z.eqb_neq in *;
    Z.div_mod_to_equations; lia.
Qed.

Lemma days_of_years_spec n : forall y,
  days_of_years y n = days_before_year (y + Z.of_nat n) - days_before_year y.
Proof.
  induction n as [| n IH]; intros y.
  - simpl. replace (y + Z.of_nat 0) with y by lia. lia.
  - cbn [days_of_years]. rewrite IH, <- (days_before_year_succ y).
    replace (y + 1 + Z.of_nat n) with (y + Z.of_nat (S n)) by lia. lia.
Qed.

Lemma days_of_months_spec y m :
  1 <= m <= 12 ->
  days_of_months y 1 (Z.to_nat (m - 1)) = days_before_month y m.
Proof.
  intros Hm.
  assert (m = 1 \/ m = 2 \/ m = 3 \/ m = 4 \/ m = 5 \/ m = 6 \/ m = 7
          \/ m = 8 \/ m = 9 \/ m = 10 \/ m = 11 \/ m = 12) as H by lia.
  unfold days_before_month.
  repeat destruct H as [-> | H]; try subst m;
    match goal with
    | |- context [days_of_months _ _ (Z.to_nat ?k)] =>
        let n := eval vm_compute in (Z.to_nat k) in
        change (Z.to_nat k) with n
    end;
    cbn [days_of_months]; unfold days_in_month;
    destruct (is_leap y); vm_compute; reflexivity.
Qed.

Lemma seconds_since_epoch_calendar dt :
  1970 <= year dt -> 1 <= month dt <= 12 ->
  seconds_since_epoch dt = calendar_seconds dt.
Proof.
  intros Hy Hm. unfold seconds_since_epoch, calendar_seconds, calendar_days, ymd2ord.
  rewrite days_of_years_spec, days_of_months_spec by done.
  rewrite Z2Nat.id by lia.
  replace (1970 + (year dt - 1970)) with (year dt) by lia.
  change (days_before_year 1970) with 719162. lia.
Qed.

Lemma parse_isoformat_checked s dt :
  parse_isoformat s = Some dt -> check_fields dt = true.
Proof.
  unfold parse_isoformat. intros H.
  destruct (parse_date s) as [[[[y m] d] rest] |]; [| done]. simpl in H.
  destruct (match rest with
            | EmptyString => Some (0, 0, 0)
            | String _ tstr => parse_time tstr
            end) as [[[hh mm] ss] |]; [| done]. simpl in H.
  destruct (check_fields _) eqn:Hc in H; [| done].
  injection H as <-. exact Hc.
Qed.


(** C7.  [iso_to_unix] maps "2023-12-01T00:00:00" to the seconds from
    the epoch of that local date, 1701388800 less the offset of the zone,
    which is the count of the calendar; converting the value back gives
    the same date and time to the second. *)
Theorem iso_to_unix_december_2023 E w :
  iso_to_unix E "2023-12-01T00:00:00" w
  = (Ok (1701388800 - utc_offset E), w)
  /\ 1701388800 = calendar_seconds first_of_december_2023
  /\ fromtimestamp E (1701388800 - utc_offset E) = first_of_december_2023.
Proof.
  split; [| split].
  - apply (iso_to_unix_run E "2023-12-01T00:00:00" first_of_december_2023).
    reflexivity.
  - reflexivity.
  - unfold fromtimestamp.
    replace (1701388800 - utc_offset E + utc_offset E) with 1701388800 by lia.
    reflexivity.
Qed.

(** * Further properties *)

(** ** [send_message] under any provider *)

(** One iteration of the loop, by the outcome of its call. *)
Lemma send_loop_step E names name i r rest tv w :
  let tv' := match names !! i with
             | Some v => <[user_key i:=v]> tv
             | None => tv
             end in
  let c := send_call E r name tv' i in
  let w0 := {| calls := calls w ++ [c]; stdout := stdout w |} in
  send_loop E names name i (r :: rest) tv w
  = match upstream E (calls w) c with
    | Responds resp =>
        match content resp with
        | Json j =>
            send_loop E names name (S i) rest tv'
              {| calls := calls w ++ [c];
                 stdout := stdout w ++ printed_lines r j |}
        | NotJson msg => (Raise (JSONDecodeError msg), w0)
        end
    | Fails msg => (Raise (ConnectionError msg), w0)
    end.
Proof.
  intros tv' c w0. cbn [send_loop]. fold tv'.
  unfold bind at 1, requests_post, request. subst w0 c. unfold send_call.
  destruct (upstream E (calls w) _) as [resp | msg]; [| reflexivity].
  unfold bind at 1, response_json.
  destruct (content resp) as [j | msg]; [| reflexivity].
  unfold ret at 1, bind at 1, print at 1. unfold bind at 1, print at 1.
  cbn [calls stdout]. unfold printed_lines. by rewrite <- app_assoc.
Qed.

Lemma send_loop_prefix E names name :
  forall rs i tv w, exists n,
    (n <= length rs)%nat
    /\ calls (send_loop E names name i rs tv w).2
       = (calls w ++ take n (loop_calls E names name i rs tv))%list
    /\ ((send_loop E names name i rs tv w).1 = Ok tt -> n = length rs).
Proof.
  induction rs as [| r rest IH]; intros i tv w.
  - exists 0%nat. simpl. by rewrite app_nil_r.
  - rewrite send_loop_step. cbn [loop_calls].
    set (tv' := match names !! i with
                | Some v => <[user_key i:=v]> tv
                | None => tv
                end).
    destruct (upstream E (calls w) (send_call E r name tv' i)) as [resp | msg];
      [destruct (content resp) as [j | msg] |].
    + match goal with
      | |- context [send_loop E names name (S i) rest tv' ?w1] =>
          destruct (IH (S i) tv' w1) as (n & Hn & Hc & Hok)
      end.
      exists (S n). rewrite Hc. cbn [calls length].
      split; [lia |]. split; [by rewrite <- app_assoc |].
      intros H. f_equal. by apply Hok.
    + exists 1%nat. cbn [length]. split; [lia |]. split; [| done].
      cbn [take calls]. by destruct loop_calls.
    + exists 1%nat. cbn [length]. split; [lia |]. split; [| done].
      cbn [take calls]. by destruct loop_calls.
Qed.

Lemma loop_calls_send E names name rs :
  forall i tv, Forall (is_send_call E) (loop_calls E names name i rs tv).
Proof.
  induction rs as [| r rest IH]; intros i tv; simpl; constructor; [| apply IH].
  repeat split.
Qed.

Lemma loop_calls_to_prefix E names name rs i tv n :
  map call_to (take n (loop_calls E names name i rs tv))
    `prefix_of` map (fun r => Some (JStr r)) rs.
Proof.
  rewrite <- (loop_calls_to E names name rs i tv), <- firstn_map.
  apply prefix_take.
Qed.

(** X1.  Whatever the provider does, the calls of [send_message] go to
    the recipients of the request in the order of the list, at most one
    each and none skipped, and each is a POST to the messages URL with
    the bearer key and the JSON content type. *)
Theorem send_calls_in_order E req :
  let sent := calls (send_message E req initial).2 in
  map call_to sent
    `prefix_of` map (fun r => Some (JStr r)) (default [] (recipients req))
  /\ Forall (is_send_call E) sent.
Proof.
  intros sent. unfold sent, send_message.
  destruct (not_list (recipients req) || not_str (template_name req)) eqn:Hg.
  - simpl. split; [apply prefix_nil | constructor].
  - unfold bind.
    match goal with
    | |- context [send_loop E ?ns ?nm 0 ?rs ?tv initial] =>
        destruct (send_loop_prefix E ns nm rs 0 tv initial) as (n & Hn & Hc & _);
        destruct (send_loop E ns nm 0 rs tv initial) as [[[] | e] w'] eqn:Hrun
    end; simpl in *; rewrite Hc; split.
    all: first [apply Forall_take, loop_calls_send
               | apply loop_calls_to_prefix].
Qed.

(** The loop when the calls before position [k] are answered with JSON
    and the call of position [k] fails in the transport. *)
Lemma send_loop_fails E names name k msg :
  (forall h c, (length h < k)%nat ->
     exists r j, upstream E h c = Responds r /\ content r = Json j) ->
  (forall h c, length h = k -> upstream E h c = Fails msg) ->
  forall rs i tv w,
    (length (calls w) <= k < length (calls w) + length rs)%nat ->
    send_loop E names name i rs tv w
    = (Raise (ConnectionError msg),
       {| calls := calls w
                   ++ take (S (k - length (calls w)))
                        (loop_calls E names name i rs tv);
          stdout := stdout (send_loop E names name i rs tv w).2 |}).
Proof.
  intros Hbefore Hat.
  induction rs as [| r rest IH]; intros i tv w Hk; [simpl in Hk; lia |].
  rewrite send_loop_step. cbn [loop_calls].
  set (tv' := match names !! i with
              | Some v => <[user_key i:=v]> tv
              | None => tv
              end).
  destruct (decide (length (calls w) = k)) as [Heq | Hne].
  - rewrite (Hat _ _ Heq). rewrite Heq, Nat.sub_diag. reflexivity.
  - destruct (Hbefore (calls w) (send_call E r name tv' i)) as (resp & j & -> & ->);
      [lia |].
    rewrite IH; cbn [calls]; rewrite ?length_app; cbn [length] in *; [| lia].
    f_equal. f_equal.
    replace (S (k - length (calls w)))
      with (S (S (k - (length (calls w) + 1)))) by lia.
    cbn [take]. by rewrite <- app_assoc.
Qed.

(** X2.  When the provider answers the first [k] calls with JSON and
    the transport fails on the next one, [send_message] lets the
    exception escape: the recipients up to that one have their call,
    the later ones have none, and the answer is the 500 of the
    framework. *)
Theorem send_stops_at_failure E req rs name k msg :
  recipients req = Some rs ->
  template_name req = Some name -> name <> "" ->
  (k < length rs)%nat ->
  (forall h c, (length h < k)%nat ->
     exists r j, upstream E h c = Responds r /\ content r = Json j) ->
  (forall h c, length h = k -> upstream E h c = Fails msg) ->
  let run := send_message E req initial in
  run.1 = Raise (ConnectionError msg)
  /\ served_status run.1 = 500
  /\ map call_to (calls run.2) = map (fun r => Some (JStr r)) (take (S k) rs).
Proof.
  intros Hrs Hname Hnm Hk Hbefore Hat run. unfold run, send_message.
  rewrite Hrs, Hname.
  destruct rs as [| r0 rest]; [simpl in Hk; lia |].
  destruct name as [| a name]; [done |]. cbn [not_list not_str orb default].
  unfold bind.
  rewrite (send_loop_fails E _ (String a name) k msg Hbefore Hat (r0 :: rest)
             0%nat _ initial) by (simpl in *; lia).
  cbn [fst snd calls initial app]. rewrite Nat.sub_0_r.
  repeat split.
  rewrite <- firstn_map, <- firstn_map. f_equal. apply loop_calls_to.
Qed.

Lemma send_stops_at_failure_witness :
  let run := send_message first_call_fails (two_recipients "hello") initial in
  run.1 = Raise (ConnectionError "timed out")
  /\ served_status run.1 = 500
  /\ map call_to (calls run.2) = [Some (JStr "a")].
Proof.
  apply (send_stops_at_failure first_call_fails (two_recipients "hello")
           ["a"; "b"] "hello" 0 "timed out");
    [reflexivity | reflexivity | discriminate | simpl; lia
    | intros h c H; lia
    | intros [| c0 h] c H; [reflexivity | discriminate]].
Defined.

Lemma send_loop_stdout E names name :
  answers_json E ->
  forall rs i tv w, exists bodies,
    length bodies = length rs
    /\ stdout (send_loop E names name i rs tv w).2
       = (stdout w ++ concat (zip_with printed_lines rs bodies))%list.
Proof.
  intros HE. induction rs as [| r rest IH]; intros i tv w.
  - exists []. simpl. by rewrite app_nil_r.
  - rewrite send_loop_step.
    match goal with
    | |- context [upstream E (calls w) ?c] =>
        destruct (HE (calls w) c) as (resp & j & -> & ->)
    end.
    match goal with
    | |- context [send_loop E names name (S i) rest ?tv' ?w1] =>
        destruct (IH (S i) tv' w1) as (bodies & Hlen & ->)
    end.
    exists (j :: bodies). cbn [length zip_with concat stdout].
    split; [by rewrite Hlen |]. by rewrite <- app_assoc.
Qed.



(** X4.  The answer 400 of [/send] is exactly the guard: the request is
    answered with [{"error": "Missing required parameters"}] if and only
    if [recipients] is absent or empty or [template_name] is absent or
    the empty string; and then no call is issued. *)
Theorem send_missing_iff E req w :
  ((send_message E req w).1 = Ok MISSING <-> missing_parameters req)
  /\ (missing_parameters req -> (send_message E req w).2 = w).
Proof.
  unfold missing_parameters, send_message.
  destruct (recipients req) as [[| r0 rest] |];
    destruct (template_name req) as [[| a name] |];
    cbn [not_list not_str orb];
    try (split; [split; [intros _; auto | reflexivity] | reflexivity]);
    try (split; [split; [intros _; auto 6 | reflexivity] | reflexivity]).
  split; [| intros [H | [H | [H | H]]]; discriminate].
  split; [| intros [H | [H | [H | H]]]; discriminate].
  unfold bind. destruct (send_loop _ _ _ _ _ _ _) as [[[] | e] w']; discriminate.
Qed.

(** ** The routes on [make_request] when the transport fails *)

(** X5.  When the transport fails, none of the five routes on
    [make_request] raises: the exception is caught, the route answers
    200 with [{"error": "Request Exception: <message>"}], and it has
    made its one GET. *)
Theorem pass_through_transport_failure E msg route w :
  (forall h c, upstream E h c = Fails msg) ->
  route ∈ pass_through_routes E ->
  (route w).1
  = Ok {| status := 200;
          body := JObj [("error", JStr ("Request Exception: " +:+ msg))] |}
  /\ exists c,
       calls (route w).2 = (calls w ++ [c])%list
       /\ call_method c = GET
       /\ call_headers c
          = [("Authorization", "Bearer " +:+ str_opt (ACCESS_TOKEN E))].
Proof.
  intros HE Hin. unfold pass_through_routes in Hin.
  repeat (apply elem_of_cons in Hin as [-> | Hin]);
    [| | | | | by apply elem_of_nil in Hin];
    unfold approved_template, rejected_templates, approved_template_contents,
      rejected_template_contents, phone_number_status, make_request,
      try_except, bind, requests_get, request;
    rewrite HE; cbn; (split; [reflexivity | eexists; repeat split]).
Qed.

Lemma pass_through_transport_failure_witness :
  (rejected_templates unreachable initial).1
  = Ok {| status := 200;
          body := JObj [("error",
                   JStr "Request Exception: connection refused")] |}.
Proof.
  destruct (pass_through_transport_failure unreachable "connection refused"
              (rejected_templates unreachable) initial (fun _ _ => eq_refl))
    as [H _].
  - unfold pass_through_routes. set_solver.
  - exact H.
Defined.

(** ** The analytics routes and the answers of the provider *)

Lemma analytics_run E route data w :
  accepted_by E route data ->
  exists c,
    call_method c = GET
    /\ calls (route data w).2 = (calls w ++ [c])%list
    /\ (route data w).1
       = match upstream E (calls w) c with
         | Responds r => relayed r
         | Fails msg => Raise (ConnectionError msg)
         end.
Proof.
  intros (Hin & (sd & s & Hsd & Hs) & (ed & e & Hed & He) & Hids).
  unfold analytics_routes in Hin.
  repeat (apply elem_of_cons in Hin as [-> | Hin]);
    [| | | by apply elem_of_nil in Hin];
    unfold get_conversation_analytics, get_template_analytics,
      get_messaging_analytics;
    rewrite Hsd, Hed;
    try (destruct (Hids eq_refl) as (ids & ->));
    rewrite (bind_iso_to_unix E sd s _ w Hs), (bind_iso_to_unix E ed e _ w He);
    unfold requests_get, bind, request;
    match goal with
    | |- context [upstream E (calls w) ?c] =>
        exists c; destruct (upstream E (calls w) c) as [r | msg]
    end;
    unfold relayed, response_json, ret, raise;
    try (destruct (ok r); [destruct (content r) |]);
    repeat split.
Qed.


(** X7.  An analytics route does not catch a failure of the transport:
    it has made its one GET, the exception escapes and the framework
    answers 500. *)
Theorem analytics_transport_failure E route data msg w :
  accepted_by E route data ->
  (forall h c, upstream E h c = Fails msg) ->
  (route data w).1 = Raise (ConnectionError msg)
  /\ served_status (route data w).1 = 500
  /\ length (calls (route data w).2) = S (length (calls w)).
Proof.
  intros Hacc HE.
  destruct (analytics_run E route data w Hacc) as (c & _ & -> & ->).
  rewrite HE, length_app. simpl. repeat split. lia.
Qed.

Lemma december_accepted E :
  accepted_by E (get_conversation_analytics E) december.
Proof.
  unfold accepted_by, analytics_routes. split; [set_solver |].
  split; [by exists "2023-12-01T00:00:00", first_of_december_2023 |].
  split; [| by intros _; eexists].
  by exists "2023-12-31T00:00:00",
       {| year := 2023; month := 12; day := 31;
          hour := 0; minute := 0; second := 0 |}.
Qed.


Lemma analytics_transport_failure_witness :
  (get_conversation_analytics unreachable december initial).1
  = Raise (ConnectionError "connection refused").
Proof.
  destruct (analytics_transport_failure unreachable
              (get_conversation_analytics unreachable) december
              "connection refused" initial (december_accepted unreachable)
              (fun _ _ => eq_refl)) as [H _].
  exact H.
Defined.

(** X8.  [template_ids] is required by [/template_analytics] only:
    without it that route answers 400 and issues no call, while
    [/conversation_analytics] and [/messaging_analytics] never read
    it. *)
Theorem template_ids_required E data w :
  get_template_analytics E (with_template_ids data None) w
  = (Ok {| status := 400;
           body := JObj [("error", JStr "Start date, end date, and template IDs are required in the request body.")] |},
     w)
  /\ (forall ids,
      get_conversation_analytics E (with_template_ids data ids) w
      = get_conversation_analytics E data w
      /\ get_messaging_analytics E (with_template_ids data ids) w
         = get_messaging_analytics E data w).
Proof.
  split.
  - unfold get_template_analytics, with_template_ids. simpl.
    by destruct (start_date data), (end_date data).
  - intros ids. split; reflexivity.
Qed.

(** ** The names of [variable1] *)

(** X9.  [split] cuts a string at every separator and nowhere else:
    the pieces are one more than the separators, no piece holds a
    separator, and joining the pieces with the separator gives the
    string back. *)
Theorem split_join sep s :
  length (split sep s) = S (occurrences sep s)
  /\ Forall (fun piece => occurrences sep piece = 0%nat) (split sep s)
  /\ join sep (split sep s) = s.
Proof.
  induction s as [| a s (Hlen & Hno & Hjoin)]; [by repeat constructor |].
  cbn [split occurrences].
  destruct (split_nonempty sep s) as (hd & tl & Hs). rewrite Hs in *.
  destruct (Ascii.eqb a sep) eqn:Ha.
  - apply Ascii.eqb_eq in Ha as ->. split; [| split].
    + simpl in *. lia.
    + by constructor.
    + change (join sep ("" :: hd :: tl)) with (String sep (join sep (hd :: tl))).
      by rewrite Hjoin.
  - split; [| split].
    + simpl in *. lia.
    + inversion Hno; subst. constructor; [| done]. simpl. by rewrite Ha.
    + rewrite <- Hjoin. by destruct tl.
Qed.

(** ** The order of timestamps *)

Ltac month_cases m H :=
  assert (m = 1 \/ m = 2 \/ m = 3 \/ m = 4 \/ m = 5 \/ m = 6 \/ m = 7
          \/ m = 8 \/ m = 9 \/ m = 10 \/ m = 11 \/ m = 12) as H by lia;
  repeat destruct H as [-> | H]; try subst m.

(** A month ends before the later months of the year begin. *)
Lemma month_order y m1 m2 :
  1 <= m1 -> m1 < m2 -> m2 <= 12 ->
  days_before_month y m1 + days_in_month y m1 <= days_before_month y m2.
Proof.
  intros H1 H12 H2. unfold days_before_month, days_in_month.
  destruct (is_leap y); month_cases m1 Hm1; month_cases m2 Hm2;
    try lia; by vm_compute.
Qed.

(** The days of a month lie in the year. *)
Lemma month_in_year y m :
  1 <= m <= 12 ->
  0 <= days_before_month y m
  /\ days_before_month y m + days_in_month y m <= year_length y.
Proof.
  intros Hm. unfold days_before_month, days_in_month, year_length.
  destruct (is_leap y); month_cases m H; by vm_compute.
Qed.

Lemma days_before_year_mono y1 y2 :
  y1 <= y2 -> days_before_year y1 <= days_before_year y2.
Proof.
  intros H. unfold days_before_year. Z.div_mod_to_equations. lia.
Qed.

Lemma year_order y1 y2 :
  y1 < y2 -> days_before_year y1 + year_length y1 <= days_before_year y2.
Proof.
  intros H. rewrite <- (days_before_year_succ y1).
  pose proof (days_before_year_mono (y1 + 1) y2 ltac:(lia)). lia.
Qed.

Lemma check_fields_bounds dt :
  check_fields dt = true ->
  1 <= month dt <= 12
  /\ 1 <= day dt <= days_in_month (year dt) (month dt)
  /\ 0 <= hour dt <= 23 /\ 0 <= minute dt <= 59 /\ 0 <= second dt <= 59.
Proof.
  unfold check_fields. intros H.
  repeat (apply andb_prop in H as [H ?]). lia.
Qed.

Lemma seconds_since_epoch_order a b :
  check_fields a = true -> check_fields b = true ->
  before a b -> seconds_since_epoch a < seconds_since_epoch b.
Proof.
  intros Ha Hb Hab.
  apply check_fields_bounds in Ha as (Hma & Hda & Hha & Hmia & Hsa).
  apply check_fields_bounds in Hb as (Hmb & Hdb & Hhb & Hmib & Hsb).
  unfold seconds_since_epoch, ymd2ord.
  pose proof (month_in_year (year a) (month a) Hma) as [Ha0 Ha1].
  pose proof (month_in_year (year b) (month b) Hmb) as [Hb0 Hb1].
  destruct Hab as [Hy | [Hy Hab]].
  - pose proof (year_order (year a) (year b) Hy). lia.
  - rewrite Hy in *. destruct Hab as [Hm | [Hm Hab]].
    + pose proof (month_order (year b) (month a) (month b)
                    ltac:(lia) Hm ltac:(lia)). lia.
    + rewrite Hm in *. lia.
Qed.




(** ** The first recipient *)

(** X12.  The first recipient always gets the first name of
    [variable1]: [split] gives at least one name, the empty string when
    [variable1] is absent, and the loop writes it over a [user1] of the
    caller. *)
Theorem send_first_recipient E req r rest name :
  recipients req = Some (r :: rest) ->
  template_name req = Some name -> name <> "" ->
  answers_json E ->
  exists c hd tl second third,
    split "," (default "" (default ∅ (template_variables req) !! "variable1"))
    = hd :: tl
    /\ calls (send_message E req initial).2 !! 0%nat = Some c
    /\ body_texts c = Some [hd; second; third].
Proof.
  intros Hrs Hname Hnm HE.
  destruct (send_message_call E req (r :: rest) name 0 r Hrs Hname Hnm HE eq_refl)
    as (tv' & Hc & Hu & _).
  destruct (split_nonempty ","
              (default "" (default ∅ (template_variables req) !! "variable1")))
    as (hd & tl & Hs).
  unfold names_of in Hu. rewrite Hs in Hu. simpl in Hu.
  exists (send_call E r name tv' 0), hd, tl. eexists _, _.
  split; [exact Hs |]. split; [exact Hc |].
  by rewrite body_texts_send_call, Hu.
Qed.

Lemma send_first_recipient_witness :
  exists c hd tl second third,
    split "," "" = hd :: tl
    /\ calls (send_message (always accepted) caller_user1 initial).2 !! 0%nat
       = Some c
    /\ body_texts c = Some [hd; second; third].
Proof.
  exact (send_first_recipient (always accepted) caller_user1 "a" [] "hello"
           eq_refl eq_refl ltac:(discriminate)
           (always_answers_json accepted (JArr []) eq_refl)).
Defined.
